(** * Routing of the [main] blueprint of [app/routes.py]

    Shallow embedding of the two view functions of [app/routes.py] and of
    the part of Flask/Werkzeug they rely on: registration of a route on a
    blueprint ([Blueprint.route] / [add_url_rule]), URL matching
    ([MapAdapter.match]) and request dispatch ([wsgi_app]).

    The Template Renderer and the data store are external collaborators:
    they live in a [world] that every effectful computation threads
    explicitly (a state monad with errors). *)

From Stdlib Require Import Ascii String List Bool Arith Lia.
Import ListNotations.
Open Scope string_scope.
Open Scope list_scope.

(** ** HTTP data *)

Inductive method :=
| GET | HEAD | POST | PUT | DELETE | PATCH | OPTIONS | TRACE | CONNECT.

Definition method_eq_dec (a b : method) : {a = b} + {a <> b}.
Proof. decide equality. Defined.

Definition method_eqb (a b : method) : bool :=
  if method_eq_dec a b then true else false.

Definition mem_method (m : method) (ms : list method) : bool :=
  existsb (method_eqb m) ms.

Record request := mk_request {
  req_method : method;
  req_path : string;
  req_query : list (string * string);
  req_headers : list (string * string);
  req_body : string
}.

Record response := mk_response {
  status : nat;
  body : string;
  allow : list method;
  location : option (string * list (string * string))  (* path, query *)
}.

(** Keyword arguments given to [render_template]. *)
Definition context := list (string * string).

(** Failures raised by the Template Renderer. *)
Inductive render_error :=
| TemplateNotFound (name : string)
| TemplateError (msg : string).

(** The path separator. *)
Abbreviation slash := "/"%char (only parsing).

Section Flask.

(** The shape of the data store (the [db] of [.models]) is not part of
    this repository; it stays abstract. *)
Context {DbState : Type}.

(** ** The world the request handling runs in *)

Record world := mk_world {
  w_renderer : string -> context -> render_error + string;
  w_db : DbState;
  w_calls : list (string * context)   (* renderer calls, in order *)
}.

(** State monad with errors: Python exceptions are the [inl] results. *)
Definition M (A : Type) : Type := world -> (render_error + A) * world.

(** [flask.render_template(name, **ctx)]: the call is recorded, then the
    Template Renderer produces the page or raises. *)
Definition render_template (name : string) (ctx : context) : M string :=
  fun w =>
    let w' := {| w_renderer := w_renderer w; w_db := w_db w;
                 w_calls := w_calls w ++ [(name, ctx)] |} in
    (w_renderer w name ctx, w').

(** ** The view functions of [app/routes.py] *)

(** [def index(): return render_template('index.html')] *)
Definition index : M string := render_template "index.html" [].

(** [def klassement(): return render_template('klassement.html')] *)
Definition klassement : M string := render_template "klassement.html" [].

(** ** Rules and blueprints *)

Record rule := mk_rule {
  rule_path : string;
  rule_endpoint : string;
  rule_methods : list method;
  rule_auto_options : bool;
  rule_view : M string
}.

(** [methods] of a rule: [None] defaults to [("GET",)]; Flask adds
    [OPTIONS] (and answers it itself) when the view does not list it,
    Werkzeug adds [HEAD] when [GET] is present. *)
Definition rule_methods_of (methods : option (list method)) : list method * bool :=
  let ms := match methods with None => [GET] | Some ms => ms end in
  let auto := negb (mem_method OPTIONS ms) in
  let ms := if auto then ms ++ [OPTIONS] else ms in
  let ms := if mem_method GET ms && negb (mem_method HEAD ms)
            then ms ++ [HEAD] else ms in
  (ms, auto).

Record blueprint := mk_blueprint {
  bp_name : string;
  bp_rules : list rule
}.

(** [Blueprint(name, __name__)] *)
Definition Blueprint (name : string) : blueprint := mk_blueprint name [].

(** [@bp.route(path, methods=...)] applied to the view [endpoint]. *)
Definition route (path endpoint : string) (methods : option (list method))
    (view : M string) (bp : blueprint) : blueprint :=
  let '(ms, auto) := rule_methods_of methods in
  mk_blueprint (bp_name bp)
    (bp_rules bp ++ [mk_rule path (String.append (bp_name bp) (String.append "." endpoint)) ms auto view]).

(** [main = Blueprint('main', __name__)] with its two decorated views. *)
Definition main : blueprint :=
  route "/klassement" "klassement" None klassement
    (route "/" "index" None index (Blueprint "main")).

Definition main_rules : list rule := bp_rules main.

(** ** URL matching ([MapAdapter.match]) *)

(** [path_info.lstrip('/')] *)
Fixpoint lstrip_slash (s : string) : string :=
  match s with
  | String c rest => if Ascii.eqb c slash then lstrip_slash rest else s
  | EmptyString => EmptyString
  end.

(** [f"/{path_info.lstrip('/')}" if path_info else ""] *)
Definition normalize_path_info (path_info : string) : string :=
  match path_info with
  | EmptyString => EmptyString
  | _ => String slash (lstrip_slash path_info)
  end.

(** [re.sub("/{2,}?", "/", path)]: the lazy pattern matches exactly two
    slashes, replaced left to right without overlap. *)
Fixpoint merge_slashes (s : string) : string :=
  match s with
  | String c (String d rest as tl) =>
      if Ascii.eqb c slash && Ascii.eqb d slash
      then String slash (merge_slashes rest)
      else String c (merge_slashes tl)
  | _ => s
  end.

(** [method in rule.methods]; [None] is the placeholder method ["--"]
    that [allowed_methods] matches with, in no rule's method set. *)
Definition accepts (m : option method) (ms : list method) : bool :=
  match m with
  | Some m => mem_method m ms
  | None => false
  end.

(** [have_match_for.update(rule.methods)] on a set kept as a list. *)
Definition add_methods (have ms : list method) : list method :=
  have ++ filter (fun x => negb (mem_method x have)) ms.

(** The rules of the state reached by [path], tried in order. *)
Fixpoint match_state (rules : list rule) (path : string) (m : option method)
    (have_match_for : list method) : option rule * list method :=
  match rules with
  | [] => (None, have_match_for)
  | r :: rs =>
      if String.eqb (rule_path r) path then
        if accepts m (rule_methods r) then (Some r, have_match_for)
        else match_state rs path m (add_methods have_match_for (rule_methods r))
      else match_state rs path m have_match_for
  end.

(** The rules one trailing slash further ([state.static[""]]) that take
    the method: with [strict_slashes] they raise [SlashRequired]. *)
Definition slash_required (rules : list rule) (path : string)
    (m : option method) : bool :=
  existsb (fun r => String.eqb (rule_path r) (String.append path "/")
                    && accepts m (rule_methods r)) rules.

Inductive pass_result :=
| PassMatch (r : rule)
| SlashRequired
| PassNone.

(** One run of [StateMachineMatcher._match] on [path]. *)
Definition matcher_pass (rules : list rule) (path : string) (m : option method)
    (have_match_for : list method) : pass_result * list method :=
  match match_state rules path m have_match_for with
  | (Some r, have) => (PassMatch r, have)
  | (None, have) =>
      (if slash_required rules path m then SlashRequired else PassNone, have)
  end.

Inductive match_result :=
| Matched (r : rule)
| RequestRedirect (new_path : string)
| MethodNotAllowed (valid : list method)
| NotFound.

(** [MapAdapter.match] with [StateMachineMatcher.match]: normalize the
    leading slashes, match; on a miss retry with merged slashes
    ([merge_slashes] is on by default) and redirect if that matches. *)
Definition map_match (rules : list rule) (path_info : string)
    (m : option method) : match_result :=
  let path := normalize_path_info path_info in
  match matcher_pass rules path m [] with
  | (PassMatch r, _) => Matched r
  | (SlashRequired, _) => RequestRedirect (String.append path "/")
  | (PassNone, have) =>
      let path2 := merge_slashes path in
      match matcher_pass rules path2 m have with
      | (SlashRequired, _) => RequestRedirect (String.append path2 "/")
      | (PassMatch _, _) => RequestRedirect path2
      | (PassNone, []) => NotFound
      | (PassNone, have') => MethodNotAllowed have'
      end
  end.

(** [url_adapter.allowed_methods()]: match with method ["--"] and keep
    the valid methods of the [MethodNotAllowed]. *)
Definition allowed_methods (rules : list rule) (path_info : string) : list method :=
  match map_match rules path_info None with
  | MethodNotAllowed ms => ms
  | _ => []
  end.

(** ** Dispatch ([Flask.wsgi_app]) *)

Definition not_found_response : response :=
  mk_response 404 "Not Found" [] None.
Definition method_not_allowed_response (ms : list method) : response :=
  mk_response 405 "Method Not Allowed" ms None.
Definition internal_server_error_response : response :=
  mk_response 500 "Internal Server Error" [] None.

(** [RequestRedirect(make_redirect_url(new_path, query_args))]: a 308
    whose target keeps the query arguments. *)
Definition redirect_response (new_path : string)
    (query : list (string * string)) : response :=
  mk_response 308 "Redirecting..." [] (Some (new_path, query)).

(** [make_response] of a [str] return value. *)
Definition make_response (rv : string) : response := mk_response 200 rv [] None.

(** [make_default_options_response] *)
Definition default_options_response (ms : list method) : response :=
  mk_response 200 "" ms None.

(** A response to [HEAD] is sent without its body. *)
Definition finalize (m : method) (resp : response) : response :=
  match m with
  | HEAD => mk_response (status resp) "" (allow resp) (location resp)
  | _ => resp
  end.

(** [full_dispatch_request] after URL matching. An exception of the view
    reaches [handle_exception] (no error handler is registered): the
    client gets a 500. *)
Definition dispatch_request (rules : list rule) (req : request) (w : world)
    : response * world :=
  match map_match rules (req_path req) (Some (req_method req)) with
  | NotFound => (not_found_response, w)
  | MethodNotAllowed ms => (method_not_allowed_response ms, w)
  | RequestRedirect p => (redirect_response p (req_query req), w)
  | Matched r =>
      if method_eqb (req_method req) OPTIONS && rule_auto_options r then
        (default_options_response (allowed_methods rules (req_path req)), w)
      else
        match rule_view r w with
        | (inl _, w') => (internal_server_error_response, w')
        | (inr rv, w') => (make_response rv, w')
        end
  end.

(** [Flask.wsgi_app]: dispatch, then send the response. *)
Definition wsgi_app (rules : list rule) (req : request) (w : world)
    : response * world :=
  let '(resp, w') := dispatch_request rules req w in
  (finalize (req_method req) resp, w').

(** Rules of [rules] that handle method [m] on path [p]. *)
Definition handlers_for (rules : list rule) (m : method) (p : string) : list rule :=
  filter (fun r => String.eqb (rule_path r) p && mem_method m (rule_methods r)) rules.


End Flask.

(** ** Module-level names of [app/routes.py] *)

(** [from .models import db] and [from flask import Blueprint, render_template] *)
Definition routes_imports : list (string * list string) :=
  [(".models", ["db"]); ("flask", ["Blueprint"; "render_template"])].

Definition imported_names : list string := flat_map snd routes_imports.

(** ** Concrete worlds *)

Definition demo_renderer (name : string) (ctx : context) : render_error + string :=
  if String.eqb name "index.html" then inr "<h1>index</h1>"
  else if String.eqb name "klassement.html" then inr "<h1>klassement</h1>"
  else inl (TemplateNotFound name).

Definition demo_world : @world unit := mk_world demo_renderer tt [].

Definition broken_world : @world unit :=
  mk_world (fun name _ => inl (TemplateNotFound name)) tt [].

Definition demo_request (m : method) (p : string) : request :=
  mk_request m p [] [] "".

Example main_rules_paths : map rule_path (@main_rules unit) = ["/"; "/klassement"].
Proof. reflexivity. Qed.

Example main_rules_methods :
  map rule_methods (@main_rules unit) = [[GET; OPTIONS; HEAD]; [GET; OPTIONS; HEAD]].
Proof. reflexivity. Qed.

Example demo_get_root :
  fst (wsgi_app main_rules (demo_request GET "/") demo_world)
  = mk_response 200 "<h1>index</h1>" [] None.
Proof. reflexivity. Qed.

Example demo_post_klassement :
  fst (wsgi_app main_rules (demo_request POST "/klassement") demo_world)
  = mk_response 405 "Method Not Allowed" [GET; OPTIONS; HEAD] None.
Proof. reflexivity. Qed.

Example demo_missing :
  fst (wsgi_app main_rules (demo_request GET "/klassement/") demo_world)
  = not_found_response.
Proof. reflexivity. Qed.

Example demo_broken :
  fst (wsgi_app main_rules (demo_request GET "/") broken_world)
  = internal_server_error_response.
Proof. reflexivity. Qed.

Example demo_double_slash_klassement :
  fst (wsgi_app main_rules (demo_request GET "//klassement") demo_world)
  = mk_response 200 "<h1>klassement</h1>" [] None.
Proof. reflexivity. Qed.

Example demo_double_slash_root :
  fst (wsgi_app main_rules (demo_request GET "//") demo_world)
  = mk_response 200 "<h1>index</h1>" [] None.
Proof. reflexivity. Qed.

Example demo_empty_path_redirect :
  fst (wsgi_app main_rules (mk_request GET "" [("a", "1")] [] "") demo_world)
  = mk_response 308 "Redirecting..." [] (Some ("/", [("a", "1")])).
Proof. reflexivity. Qed.

Example demo_empty_path_post :
  fst (wsgi_app main_rules (demo_request POST "") demo_world) = not_found_response.
Proof. reflexivity. Qed.

(** ** Facts about the embedding *)

Lemma match_state_in {D : Type} (rules : list (@rule D)) p m h r h' :
  match_state rules p m h = (Some r, h') -> In r rules.
Proof.
  revert h; induction rules as [|r' rs IH]; intros h H; simpl in H.
  - discriminate.
  - destruct (String.eqb (rule_path r') p).
    + destruct (accepts m (rule_methods r')).
      * injection H as <- _; left; reflexivity.
      * right; eapply IH; exact H.
    + right; eapply IH; exact H.
Qed.

Lemma map_match_in {D : Type} (rules : list (@rule D)) p m r :
  map_match rules p m = Matched r -> In r rules.
Proof.
  unfold map_match, matcher_pass.
  destruct (match_state rules (normalize_path_info p) m []) as [[r1 |] h1] eqn:E1.
  - intros H; injection H as <-; eapply match_state_in; exact E1.
  - destruct (slash_required rules (normalize_path_info p) m); [discriminate |].
    destruct (match_state rules (merge_slashes (normalize_path_info p)) m h1)
      as [[r2 |] h2]; [discriminate |].
    destruct (slash_required _ _ _); [discriminate |].
    destruct h2; discriminate.
Qed.

Lemma main_rules_views {D : Type} (r : @rule D) :
  In r main_rules -> rule_view r = index \/ rule_view r = klassement.
Proof.
  simpl; intros [<- | [<- | []]]; [left | right]; reflexivity.
Qed.

Lemma render_template_world {D : Type} (w : @world D) name ctx :
  w_renderer (snd (render_template name ctx w)) = w_renderer w /\
  w_db (snd (render_template name ctx w)) = w_db w /\
  fst (render_template name ctx w) = w_renderer w name ctx.
Proof. repeat split. Qed.

Lemma main_view_world {D : Type} (r : @rule D) (w : @world D) :
  In r main_rules ->
  w_renderer (snd (rule_view r w)) = w_renderer w /\
  w_db (snd (rule_view r w)) = w_db w.
Proof.
  intros Hin; destruct (main_rules_views r Hin) as [-> | ->];
    unfold index, klassement; split; apply render_template_world.
Qed.

Lemma main_view_result {D : Type} (r : @rule D) (w w' : @world D) :
  In r main_rules -> w_renderer w = w_renderer w' ->
  fst (rule_view r w) = fst (rule_view r w').
Proof.
  intros Hin Hr; destruct (main_rules_views r Hin) as [-> | ->]; simpl;
    rewrite Hr; reflexivity.
Qed.

Lemma wsgi_app_world {D : Type} (req : request) (w : @world D) :
  w_renderer (snd (wsgi_app main_rules req w)) = w_renderer w /\
  w_db (snd (wsgi_app main_rules req w)) = w_db w.
Proof.
  unfold wsgi_app, dispatch_request.
  destruct (map_match main_rules (req_path req) (Some (req_method req)))
    as [r | p | ms |] eqn:E; try (split; reflexivity).
  destruct (method_eqb (req_method req) OPTIONS && rule_auto_options r);
    try (split; reflexivity).
  pose proof (main_view_world r w (map_match_in _ _ _ _ E)) as Hw.
  destruct (rule_view r w) as [[e | rv] w'] eqn:Ev; exact Hw.
Qed.

Lemma wsgi_app_response_renderer {D : Type} (req : request) (w w' : @world D) :
  w_renderer w = w_renderer w' ->
  fst (wsgi_app main_rules req w) = fst (wsgi_app main_rules req w').
Proof.
  intros Hr; unfold wsgi_app, dispatch_request.
  destruct (map_match main_rules (req_path req) (Some (req_method req)))
    as [r | p | ms |] eqn:E; try reflexivity.
  destruct (method_eqb (req_method req) OPTIONS && rule_auto_options r);
    try reflexivity.
  pose proof (main_view_result r w w' (map_match_in _ _ _ _ E) Hr) as Hv.
  destruct (rule_view r w) as [[e | rv] w1], (rule_view r w') as [[e' | rv'] w1'];
    simpl in Hv; try discriminate; try reflexivity.
  injection Hv as ->; reflexivity.
Qed.

Lemma main_rules_eq {D : Type} :
  @main_rules D =
  [mk_rule "/" "main.index" [GET; OPTIONS; HEAD] true index;
   mk_rule "/klassement" "main.klassement" [GET; OPTIONS; HEAD] true klassement].
Proof. reflexivity. Qed.

Lemma main_handlers_at_most_one {D : Type} (m : method) (p : string) :
  length (handlers_for (@main_rules D) m p) <= 1.
Proof.
  unfold handlers_for; rewrite main_rules_eq; cbn -[String.eqb mem_method].
  destruct (String.eqb "/" p) eqn:E1, (String.eqb "/klassement" p) eqn:E2.
  - apply String.eqb_eq in E1, E2; subst; discriminate.
  - destruct (mem_method m [GET; OPTIONS; HEAD]); simpl; lia.
  - destruct (mem_method m [GET; OPTIONS; HEAD]); simpl; lia.
  - simpl; lia.
Qed.

(** *** Paths after normalization *)















(** *** The matcher on the [main] rules *)



(** ** Claims *)





(** C3 (as stated): some (method, path) pair of the routing table built by
    [app/routes.py] has two or more handlers. It fails: the blueprint
    registers [/] once. *)
Lemma no_conflicting_registration_cex :
  ~ (exists (m : method) (p : string),
       2 <= length (handlers_for (@main_rules unit) m p)).
Proof.
  intros [m [p H]]; pose proof (@main_handlers_at_most_one unit m p); lia.
Qed.

(** C3 (amended): the blueprint [main] registers exactly two rules, [/]
    served by [index] and [/klassement] served by [klassement]; every
    (method, path) pair has at most one handler. *)
Theorem main_routing_table_unique {D : Type} :
  map rule_path (@main_rules D) = ["/"; "/klassement"] /\
  map rule_view (@main_rules D) = [index; klassement] /\
  (forall m p, length (handlers_for (@main_rules D) m p) <= 1).
Proof.
  split; [reflexivity | split; [reflexivity |]].
  intros m p; apply main_handlers_at_most_one.
Qed.









(** C7 (as stated): the fragment references [User], [Listing] and [db].
    It fails: [app/routes.py] imports only [db] from [.models]. *)
Lemma data_store_surface_cex :
  ~ (In "User" imported_names /\ In "Listing" imported_names /\
     In "db" imported_names).
Proof.
  intros [H _]; simpl in H; intuition discriminate.
Qed.

(** C7 (amended): of the data store the fragment imports only [db]
    ([User] and [Listing] are not referenced), and no execution of [index],
    [klassement] or of any request dispatch changes the data-store state. *)
Theorem data_store_untouched {D : Type} :
  imported_names = ["db"; "Blueprint"; "render_template"] /\
  forall (w : @world D) (req : request),
    w_db (snd (index w)) = w_db w /\
    w_db (snd (klassement w)) = w_db w /\
    w_db (snd (wsgi_app main_rules req w)) = w_db w.
Proof.
  split; [reflexivity |]; intros w req.
  split; [| split]; [reflexivity | reflexivity | apply wsgi_app_world].
Qed.

(** C8: the same request sent twice in a row gets the same response: the
    first run changes nothing the second one reads. (Stated for every
    request, so in particular for GET requests to [/] and [/klassement].) *)
Theorem repeated_request_same_response {D : Type} (w : @world D) (req : request) :
  fst (wsgi_app main_rules req (snd (wsgi_app main_rules req w)))
  = fst (wsgi_app main_rules req w).
Proof.
  apply wsgi_app_response_renderer, wsgi_app_world.
Qed.

(** C9: each view calls the Template Renderer exactly once, with its fixed
    template name and an empty context, and returns the renderer's result
    unchanged. *)
Theorem views_render_fixed_template {D : Type} (w : @world D) :
  fst (index w) = w_renderer w "index.html" [] /\
  w_calls (snd (index w)) = w_calls w ++ [("index.html", [])] /\
  fst (klassement w) = w_renderer w "klassement.html" [] /\
  w_calls (snd (klassement w)) = w_calls w ++ [("klassement.html", [])].
Proof. repeat split. Qed.



(** ** Further properties of the [main] blueprint *)





(** The request [req] with its path replaced by [p]. *)
Definition with_path (p : string) (req : request) : request :=
  mk_request (req_method req) p (req_query req) (req_headers req) (req_body req).

Lemma lstrip_slash_idem (s : string) : lstrip_slash (lstrip_slash s) = lstrip_slash s.
Proof.
  induction s as [|c s IH]; [reflexivity |]; simpl.
  destruct (Ascii.eqb c slash) eqn:E; [exact IH | simpl; rewrite E; reflexivity].
Qed.

Lemma normalize_path_info_idem (p : string) :
  normalize_path_info (normalize_path_info p) = normalize_path_info p.
Proof.
  destruct p as [|c p]; [reflexivity |].
  change (normalize_path_info (String c p))
    with (String slash (lstrip_slash (String c p))).
  change (normalize_path_info (String slash (lstrip_slash (String c p))))
    with (String slash (lstrip_slash (lstrip_slash (String c p)))).
  rewrite lstrip_slash_idem; reflexivity.
Qed.

(** For any rule table, a request is handled exactly like the same request
    on its normalized path: [//klassement] is served as [/klassement],
    [///] as [/]. *)
Theorem wsgi_app_normalized_path {D : Type} (rules : list (@rule D))
    (w : @world D) (req : request) :
  wsgi_app rules req w =
  wsgi_app rules (with_path (normalize_path_info (req_path req)) req) w.
Proof.
  assert (Hm : forall m, map_match rules (normalize_path_info (req_path req)) m
                         = map_match rules (req_path req) m).
  { intros m; unfold map_match; rewrite normalize_path_info_idem; reflexivity. }
  assert (Ha : allowed_methods rules (normalize_path_info (req_path req))
               = allowed_methods rules (req_path req)).
  { unfold allowed_methods; rewrite Hm; reflexivity. }
  unfold wsgi_app, dispatch_request, with_path; cbn [req_path req_method req_query].
  rewrite Hm, Ha; reflexivity.
Qed.
